(** * TorchGeo trainers: the [BaseTask] abstract base class

    A shallow embedding of [torchgeo/trainers/base.py].  The class is a thin
    template over the Lightning training framework: its constructor saves
    the hyperparameters and runs three configuration hooks, and it supplies
    default [configure_optimizers] and [forward] methods.

    Python objects are references into an interpreter state (the [World]);
    methods are computations that thread the receiver and the world and may
    raise.  What the class takes from Lightning and PyTorch (parameter
    enumeration, the two constructors, calling a module) is an interface,
    [Framework], over which every theorem is stated. *)

From Stdlib Require Import ZArith List Floats.
From stdpp Require Import gmap strings.

Set Warnings "-inexact-float".
Local Open Scope string_scope.

(** ** Values and exceptions *)

Definition loc := nat.

(** The Python values the class handles: hyperparameter values, attribute
    values, and references to framework objects. *)
Inductive pyval :=
| VNone
| VBool (b : bool)
| VInt (z : Z)
| VFloat (f : float)
| VStr (s : string)
| VObj (l : loc).

Inductive exn :=
| KeyError (key : string)
| AttributeError (name : string)
| TypeError (msg : string)
| ValueError (msg : string)
| RuntimeError (msg : string).

(** [int], [float] and [bool] are Python's numeric scalars. *)
Definition is_numeric (v : pyval) : bool :=
  match v with
  | VBool _ | VInt _ | VFloat _ => true
  | _ => false
  end.

(** ** Computations: state and exceptions *)

Inductive outcome (A : Type) :=
| Return (a : A)
| Raise (e : exn).
Arguments Return {A} a.
Arguments Raise {A} e.

(** A state left by a raising computation is kept: Python does not roll
    side effects back. *)
Definition M (S A : Type) : Type := S -> outcome A * S.

Definition ret {S A} (a : A) : M S A := fun s => (Return a, s).

Definition bind {S A B} (m : M S A) (k : A -> M S B) : M S B :=
  fun s => match m s with
           | (Return a, s') => k a s'
           | (Raise e, s') => (Raise e, s')
           end.

Definition raise {S A} (e : exn) : M S A := fun s => (Raise e, s).

Declare Scope py_scope.
Delimit Scope py_scope with py.
Notation "x <- m ;; k" := (bind m (fun x => k))
  (at level 100, m at next level, right associativity) : py_scope.
Notation "m ;; k" := (bind m (fun _ => k))
  (at level 100, right associativity) : py_scope.
Local Open Scope py_scope.

(** ** Task instances *)

(** An instance: the hyperparameter mapping kept by Lightning's
    [HyperparametersMixin] and the instance attributes ([model] among
    them, once assigned). *)
Record Obj := {
  hparams : gmap string pyval;
  attrs : gmap string pyval
}.

(** What [object.__new__] hands to [__init__]. *)
Definition new_object : Obj := {| hparams := ∅; attrs := ∅ |}.

(** [d[key]] on a dict. *)
Definition getitem {S} (d : gmap string pyval) (key : string) : M S pyval :=
  match d !! key with
  | Some v => ret v
  | None => raise (KeyError key)
  end.

(** The configuration dictionary of [configure_optimizers]
    (Lightning's [OptimizerLRSchedulerConfig]). *)
Record LRSchedulerConfig := {
  scheduler : pyval;
  monitor : pyval
}.

Record OptimizerLRSchedulerConfig := {
  optimizer : pyval;
  lr_scheduler : LRSchedulerConfig
}.

(** ** What the class consumes from Lightning and PyTorch *)

Class Framework (World : Type) := {
  (** [self.parameters()]: the parameters of the registered submodules. *)
  parameters : Obj -> World -> list pyval;
  (** [AdamW(params, lr=lr)]. *)
  AdamW : list pyval -> pyval -> M World pyval;
  (** [ReduceLROnPlateau(optimizer, patience=patience)]. *)
  ReduceLROnPlateau : pyval -> pyval -> M World pyval;
  (** Calling a framework object on positional and keyword arguments. *)
  call_object : loc -> list pyval -> list (string * pyval) -> M World pyval
}.

(** ** Classes *)

Inductive hook := ConfigureLosses | ConfigureMetrics | ConfigureModels.

Definition hook_name (h : hook) : string :=
  match h with
  | ConfigureLosses => "configure_losses"
  | ConfigureMetrics => "configure_metrics"
  | ConfigureModels => "configure_models"
  end.

Section Task.
Context {World : Type} {F : Framework World}.

(** A method body runs on the receiver and the world. *)
Definition method : Type := M (Obj * World) pyval.

(** What a subclass body may define over [BaseTask]. *)
Record class_body := {
  def_monitor : option pyval;
  def_configure_losses : option method;
  def_configure_metrics : option method;
  def_configure_models : option method
}.

Inductive pyclass :=
| BaseTask
| Subclass (base : pyclass) (body : class_body).

Definition defined (body : class_body) (h : hook) : option method :=
  match h with
  | ConfigureLosses => def_configure_losses body
  | ConfigureMetrics => def_configure_metrics body
  | ConfigureModels => def_configure_models body
  end.

Definition liftW {A} (m : M World A) : M (Obj * World) A :=
  fun '(self, w) => let '(r, w') := m w in (r, (self, w')).

(** *** The methods of [BaseTask] *)

(** The three hooks have a docstring for a body. *)
Definition configure_losses : method := ret VNone.

Definition configure_metrics : method := ret VNone.

(** Decorated with [@abstractmethod]. *)
Definition configure_models : method := ret VNone.

Record pyfunction := {
  isabstractmethod : bool;
  code : method
}.

Definition BaseTask_dict (h : hook) : pyfunction :=
  match h with
  | ConfigureLosses => {| isabstractmethod := false; code := configure_losses |}
  | ConfigureMetrics => {| isabstractmethod := false; code := configure_metrics |}
  | ConfigureModels => {| isabstractmethod := true; code := configure_models |}
  end.

(** Attribute lookup along the inheritance chain. *)
Fixpoint getmethod (c : pyclass) (h : hook) : pyfunction :=
  match c with
  | BaseTask => BaseTask_dict h
  | Subclass base body =>
      match defined body h with
      | Some m => {| isabstractmethod := false; code := m |}
      | None => getmethod base h
      end
  end.

(** [monitor = "val_loss"], a class attribute. *)
Fixpoint class_monitor (c : pyclass) : pyval :=
  match c with
  | BaseTask => VStr "val_loss"
  | Subclass base body =>
      match def_monitor body with
      | Some v => v
      | None => class_monitor base
      end
  end.

(** [self.monitor]: the instance attribute if there is one, the class
    attribute otherwise. *)
Definition get_monitor (c : pyclass) (self : Obj) : pyval :=
  match attrs self !! "monitor" with
  | Some v => v
  | None => class_monitor c
  end.

(** Does some class below [BaseTask] on the chain of [c] define the
    hook, or the [monitor] attribute? *)
Fixpoint overrides (c : pyclass) (h : hook) : bool :=
  match c with
  | BaseTask => false
  | Subclass base body =>
      match defined body h with
      | Some _ => true
      | None => overrides base h
      end
  end.

Fixpoint overrides_monitor (c : pyclass) : bool :=
  match c with
  | BaseTask => false
  | Subclass base body =>
      match def_monitor body with
      | Some _ => true
      | None => overrides_monitor base
      end
  end.

(** [self.<name>] for an attribute no class defines, such as [model]. *)
Definition getattr (name : string) : M (Obj * World) pyval :=
  fun '(self, w) =>
    match attrs self !! name with
    | Some v => (Return v, (self, w))
    | None => (Raise (AttributeError name), (self, w))
    end.

(** [ABCMeta.__new__]: the names abstract in a base that still resolve
    to an abstract function.  Subclass bodies define plain functions. *)
Fixpoint abstractmethods (c : pyclass) : list hook :=
  match c with
  | BaseTask => [ConfigureModels]
  | Subclass base _ =>
      List.filter (fun h => isabstractmethod (getmethod c h)) (abstractmethods base)
  end.

(** *** Construction *)

(** What [__init__] does, in order, as an observer of the constructor
    sees it. *)
Inductive event :=
| SaveHyperparameters (init_args : gmap string pyval)
| Invoke (h : hook).

Definition init_state : Type := (Obj * World) * list event.

Definition record (e : event) : M init_state pyval :=
  fun '(s, log) => (Return VNone, (s, (log ++ [e])%list)).

(** A callee works on the receiver and the world, never on the log. *)
Definition run {A} (m : M (Obj * World) A) : M init_state A :=
  fun '(s, log) => let '(r, s') := m s in (r, (s', log)).

(** [LightningModule.__init__] prepares framework state that is not part
    of [Obj]. *)
Definition LightningModule__init__ : method := ret VNone.

(** [self.save_hyperparameters()]: Lightning collects the arguments of
    the running constructor and merges them into [self.hparams]. *)
Definition save_hyperparameters (init_args : gmap string pyval) : method :=
  fun '(self, w) =>
    (Return VNone, ({| hparams := init_args ∪ hparams self; attrs := attrs self |}, w)).

(** [self.<hook>()], dispatched on the class of the instance. *)
Definition call_hook (c : pyclass) (h : hook) : M init_state pyval :=
  record (Invoke h) ;; run (code (getmethod c h)).

Definition BaseTask__init__ (c : pyclass) (init_args : gmap string pyval)
  : M init_state pyval :=
  run LightningModule__init__ ;;
  record (SaveHyperparameters init_args) ;;
  run (save_hyperparameters init_args) ;;
  call_hook c ConfigureLosses ;;
  call_hook c ConfigureMetrics ;;
  call_hook c ConfigureModels ;;
  ret VNone.

(** Calling the class: [object.__new__] refuses a class that still has
    abstract methods, otherwise [__init__] runs on the new object.  The
    constructor of a subclass is taken to hand its arguments, [init_args],
    to [BaseTask.__init__] and to do nothing else. *)
Definition instantiate (c : pyclass) (init_args : gmap string pyval) (w : World)
  : outcome Obj * World * list event :=
  match abstractmethods c with
  | h :: _ =>
      (Raise (TypeError ("Can't instantiate abstract class with abstract method "
                         +:+ hook_name h)), w, [])
  | [] =>
      match BaseTask__init__ c init_args ((new_object, w), []) with
      | (Return _, ((self, w'), log)) => (Return self, w', log)
      | (Raise e, ((_, w'), log)) => (Raise e, w', log)
      end
  end.

(** *** [configure_optimizers] *)

Definition self_parameters : M (Obj * World) (list pyval) :=
  fun '(self, w) => (Return (parameters self w), (self, w)).

Definition self_hparams : M (Obj * World) (gmap string pyval) :=
  fun '(self, w) => (Return (hparams self), (self, w)).

Definition self_monitor (c : pyclass) : M (Obj * World) pyval :=
  fun '(self, w) => (Return (get_monitor c self), (self, w)).

Definition configure_optimizers (c : pyclass)
  : M (Obj * World) OptimizerLRSchedulerConfig :=
  params <- self_parameters ;;
  hp <- self_hparams ;;
  lr <- getitem hp "lr" ;;
  opt <- liftW (AdamW params lr) ;;
  hp <- self_hparams ;;
  patience <- getitem hp "patience" ;;
  sched <- liftW (ReduceLROnPlateau opt patience) ;;
  mon <- self_monitor c ;;
  ret {| optimizer := opt;
         lr_scheduler := {| scheduler := sched; monitor := mon |} |}.

(** *** [forward] *)

(** Calling a value: only objects can be callable. *)
Definition py_call (f : pyval) (args : list pyval) (kwargs : list (string * pyval))
  : M World pyval :=
  match f with
  | VObj l => call_object l args kwargs
  | _ => raise (TypeError "object is not callable")
  end.

Definition forward (args : list pyval) (kwargs : list (string * pyval)) : method :=
  model <- getattr "model" ;;
  liftW (py_call model args kwargs).



Definition init_log (init_args : gmap string pyval) : list event :=
  [SaveHyperparameters init_args;
   Invoke ConfigureLosses; Invoke ConfigureMetrics; Invoke ConfigureModels].

(** A method that, whenever it returns, has left [self.hparams] alone. *)
Definition preserves_hparams (m : method) : Prop :=
  forall self w r self' w',
    m (self, w) = (Return r, (self', w')) -> hparams self' = hparams self.

(** Values that are not references to objects: [None], numbers, strings. *)
Definition is_object (v : pyval) : bool :=
  match v with
  | VObj _ => true
  | _ => false
  end.

End Task.

Arguments pyclass World : clear implicits.
Arguments class_body World : clear implicits.
Arguments method World : clear implicits.

(** ** A PyTorch world

    An instance of [Framework] to run the class on: a heap of tensors,
    modules, optimizers and schedulers, with the two constructors as
    PyTorch documents them.  [AdamW] compares [0.0 <= lr] and refuses an
    empty parameter list; [ReduceLROnPlateau] checks that it is given an
    optimizer and stores [patience] as it comes. *)
Module Torch.

Inductive object :=
| Tensor
| NNModule (params : list loc)
           (fwd : list pyval -> list (string * pyval) -> outcome pyval)
| Optimizer (param_groups : list pyval) (lr : pyval)
| Scheduler (optimizer : pyval) (patience : pyval).

Definition heap : Type := list object.

Definition alloc (o : object) : M heap loc :=
  fun h => (Return (length h), (h ++ [o])%list).

(** The parameters of the modules held in the attributes of [self]. *)
Definition module_parameters (h : heap) (v : pyval) : list pyval :=
  match v with
  | VObj l =>
      match h !! l with
      | Some (NNModule ps _) => VObj <$> ps
      | _ => []
      end
  | _ => []
  end.

Definition parameters (self : Obj) (h : heap) : list pyval :=
  flat_map (fun kv => module_parameters h (snd kv)) (map_to_list (attrs self)).

(** [0.0 <= lr] *)
Definition nonnegative (v : pyval) : outcome bool :=
  match v with
  | VFloat f => Return (PrimFloat.leb 0 f)
  | VInt z => Return (0 <=? z)%Z
  | VBool _ => Return true
  | _ => Raise (TypeError "'<=' not supported between 'float' and this type")
  end.

Definition AdamW (params : list pyval) (lr : pyval) : M heap pyval :=
  match nonnegative lr with
  | Raise e => raise e
  | Return false => raise (ValueError "Invalid learning rate")
  | Return true =>
      match params with
      | [] => raise (ValueError "optimizer got an empty parameter list")
      | _ => l <- alloc (Optimizer params lr) ;; ret (VObj l)
      end
  end.

Definition is_optimizer (h : heap) (v : pyval) : bool :=
  match v with
  | VObj l => match h !! l with Some (Optimizer _ _) => true | _ => false end
  | _ => false
  end.

Definition ReduceLROnPlateau (opt patience : pyval) : M heap pyval :=
  fun h =>
    if is_optimizer h opt
    then (l <- alloc (Scheduler opt patience) ;; ret (VObj l)) h
    else (Raise (TypeError "not an Optimizer"), h).

Definition call_object (l : loc) (args : list pyval) (kwargs : list (string * pyval))
  : M heap pyval :=
  fun h =>
    match h !! l with
    | Some (NNModule _ fwd) => (fwd args kwargs, h)
    | _ => (Raise (TypeError "object is not callable"), h)
    end.

#[global] Instance framework : Framework heap := {
  parameters := parameters;
  AdamW := AdamW;
  ReduceLROnPlateau := ReduceLROnPlateau;
  call_object := call_object
}.

(** *** Example subclasses *)

(** A model that returns its first positional argument. *)
Definition identity (args : list pyval) (kwargs : list (string * pyval)) : outcome pyval :=
  match args with
  | x :: _ => Return x
  | [] => Raise (TypeError "forward() missing 1 required positional argument")
  end.

(** [self.<name> = v] *)
Definition setattr (name : string) (v : pyval) : method heap :=
  fun '(self, h) =>
    (Return VNone, ({| hparams := hparams self; attrs := <[name := v]> (attrs self) |}, h)).

(** [self.model = Identity()], a module with one weight. *)
Definition identity_configure_models : method heap :=
  weight <- liftW (alloc Tensor) ;;
  model <- liftW (alloc (NNModule [weight] identity)) ;;
  setattr "model" (VObj model).

(** [class IdentityTask(BaseTask)] with [configure_models] alone. *)
Definition IdentityTask : pyclass heap :=
  Subclass BaseTask
    {| def_monitor := None;
       def_configure_losses := None;
       def_configure_metrics := None;
       def_configure_models := Some identity_configure_models |}.

(** [class AccuracyTask(IdentityTask)] with [monitor = "val_acc"]. *)
Definition AccuracyTask : pyclass heap :=
  Subclass IdentityTask
    {| def_monitor := Some (VStr "val_acc");
       def_configure_losses := None;
       def_configure_metrics := None;
       def_configure_models := None |}.

(** [class PassTask(BaseTask)] whose [configure_models] is [pass]. *)
Definition PassTask : pyclass heap :=
  Subclass BaseTask
    {| def_monitor := None;
       def_configure_losses := None;
       def_configure_metrics := None;
       def_configure_models := Some (ret VNone) |}.

(** [class LossOnlyTask(BaseTask)]: no [configure_models]. *)
Definition LossOnlyTask : pyclass heap :=
  Subclass BaseTask
    {| def_monitor := None;
       def_configure_losses := Some (setattr "criterion" VNone);
       def_configure_metrics := None;
       def_configure_models := None |}.

Definition lr_patience (lr patience : pyval) : gmap string pyval :=
  <["lr" := lr]> (<["patience" := patience]> ∅).

(** The world and the instance that [IdentityTask(lr=1e-3, patience=5)]
    leaves when run in an empty world. *)
Definition world : heap := [Tensor; NNModule [0] identity].

Definition task (lr patience : pyval) : Obj :=
  {| hparams := lr_patience lr patience; attrs := <["model" := VObj 1]> ∅ |}.

(** What [configure_optimizers] returns on that instance, and the world
    it leaves. *)
Definition config (mon : string) : OptimizerLRSchedulerConfig :=
  {| optimizer := VObj 2;
     lr_scheduler := {| scheduler := VObj 3; monitor := VStr mon |} |}.

Definition configured (lr patience : pyval) : heap :=
  [Tensor; NNModule [0] identity;
   Optimizer [VObj 0] lr; Scheduler (VObj 2) patience].

(** An instance of [PassTask]: hyperparameters and nothing else. *)
Definition bare (lr patience : pyval) : Obj :=
  {| hparams := lr_patience lr patience; attrs := ∅ |}.

(** [class BrokenMetricsTask(IdentityTask)] whose [configure_metrics]
    raises. *)
Definition BrokenMetricsTask : pyclass heap :=
  Subclass IdentityTask
    {| def_monitor := None;
       def_configure_losses := Some (setattr "criterion" (VStr "mse"));
       def_configure_metrics := Some (raise (RuntimeError "no metrics"));
       def_configure_models := None |}.

(** An instance that has [self.monitor = "train_loss"] of its own. *)
Definition shadowing (lr patience : pyval) : Obj :=
  {| hparams := lr_patience lr patience;
     attrs := <["monitor" := VStr "train_loss"]> (<["model" := VObj 1]> ∅) |}.

(** An instance with [self.model = None]. *)
Definition unset (lr patience : pyval) : Obj :=
  {| hparams := lr_patience lr patience; attrs := <["model" := VNone]> ∅ |}.

(** [class TrainLossTask(BaseTask)] with [monitor = "val_acc"] in the
    class body and [self.monitor = "train_loss"] at the end of its
    [configure_models]. *)
Definition TrainLossTask : pyclass heap :=
  Subclass BaseTask
    {| def_monitor := Some (VStr "val_acc");
       def_configure_losses := None;
       def_configure_metrics := None;
       def_configure_models :=
         Some (identity_configure_models ;; setattr "monitor" (VStr "train_loss")) |}.

End Torch.

(** * Properties *)

Section Properties.
Context {World : Type} {F : Framework World}.
Implicit Types (c : pyclass World) (self : Obj) (w : World).

(** ** Classes and abstract methods *)

Lemma getmethod_isabstract c h :
  isabstractmethod (getmethod c h) =
  match h with
  | ConfigureModels => negb (overrides c h)
  | _ => false
  end.
Proof.
  induction c as [|base IH body]; simpl.
  - destruct h; reflexivity.
  - destruct (defined body h); [destruct h; reflexivity | exact IH].
Qed.

Lemma abstractmethods_overrides c :
  abstractmethods c = if overrides c ConfigureModels then [] else [ConfigureModels].
Proof.
  induction c as [|base IH body]; [reflexivity|].
  cbn [abstractmethods]. rewrite IH.
  destruct (overrides base ConfigureModels) eqn:Hb.
  - cbn. destruct (def_configure_models body); [reflexivity | now rewrite Hb].
  - cbn [List.filter]. rewrite getmethod_isabstract.
    destruct (overrides (Subclass base body) ConfigureModels); reflexivity.
Qed.

Lemma getmethod_not_overridden c h :
  overrides c h = false -> getmethod c h = BaseTask_dict h.
Proof.
  induction c as [|base IH body]; simpl; [reflexivity|].
  destruct (defined body h); [discriminate | exact IH].
Qed.

Lemma class_monitor_default c :
  overrides_monitor c = false -> class_monitor c = VStr "val_loss".
Proof.
  induction c as [|base IH body]; simpl; [reflexivity|].
  destruct (def_monitor body); [discriminate | exact IH].
Qed.

(** ** Construction *)

(** The object the first hook receives. *)
Lemma save_hyperparameters_new args w :
  save_hyperparameters args (new_object, w)
  = (Return VNone, ({| hparams := args; attrs := ∅ |}, w)).
Proof.
  unfold save_hyperparameters, new_object; simpl.
  now rewrite (right_id_L ∅ (∪)).
Qed.

(** [instantiate], hook by hook. *)
Lemma instantiate_concrete c args w :
  abstractmethods c = [] ->
  instantiate c args w =
  match code (getmethod c ConfigureLosses) ({| hparams := args; attrs := ∅ |}, w) with
  | (Raise e, (_, w1)) =>
      (Raise e, w1, [SaveHyperparameters args; Invoke ConfigureLosses])
  | (Return _, s1) =>
      match code (getmethod c ConfigureMetrics) s1 with
      | (Raise e, (_, w2)) =>
          (Raise e, w2,
           [SaveHyperparameters args; Invoke ConfigureLosses; Invoke ConfigureMetrics])
      | (Return _, s2) =>
          match code (getmethod c ConfigureModels) s2 with
          | (Raise e, (_, w3)) => (Raise e, w3, init_log args)
          | (Return _, (self, w3)) => (Return self, w3, init_log args)
          end
      end
  end.
Proof.
  intros Habs. unfold instantiate. rewrite Habs.
  unfold BaseTask__init__, call_hook, bind, run, record, LightningModule__init__, ret.
  rewrite save_hyperparameters_new; simpl.
  destruct (code (getmethod c ConfigureLosses) _) as [[r1|e1] [o1 w1]]; [|reflexivity].
  destruct (code (getmethod c ConfigureMetrics) _) as [[r2|e2] [o2 w2]]; [|reflexivity].
  destruct (code (getmethod c ConfigureModels) _) as [[r3|e3] [o3 w3]]; reflexivity.
Qed.

Lemma instantiate_abstract c args w h hs :
  abstractmethods c = h :: hs ->
  instantiate c args w =
  (Raise (TypeError ("Can't instantiate abstract class with abstract method "
                     +:+ hook_name h)), w, []).
Proof. intros Habs. unfold instantiate. now rewrite Habs. Qed.

(** A construction that completes went through the three hooks. *)
Lemma instantiate_Return c args w self w' log :
  instantiate c args w = (Return self, w', log) ->
  overrides c ConfigureModels = true /\
  log = init_log args /\
  exists r1 s1 r2 s2 r3,
    code (getmethod c ConfigureLosses) ({| hparams := args; attrs := ∅ |}, w)
    = (Return r1, s1) /\
    code (getmethod c ConfigureMetrics) s1 = (Return r2, s2) /\
    code (getmethod c ConfigureModels) s2 = (Return r3, (self, w')).
Proof.
  intros Hi.
  pose proof (abstractmethods_overrides c) as Habs.
  destruct (overrides c ConfigureModels) eqn:Hov.
  - rewrite (instantiate_concrete _ _ _ Habs) in Hi.
    destruct (code (getmethod c ConfigureLosses) _) as [[r1|e1] [o1 w1]] eqn:H1;
      [|discriminate].
    destruct (code (getmethod c ConfigureMetrics) _) as [[r2|e2] [o2 w2]] eqn:H2;
      [|discriminate].
    destruct (code (getmethod c ConfigureModels) _) as [[r3|e3] [o3 w3]] eqn:H3;
      [|discriminate].
    injection Hi as -> -> <-.
    split; [reflexivity|]. split; [reflexivity|].
    exists r1, (o1, w1), r2, (o2, w2), r3. auto.
  - rewrite (instantiate_abstract _ _ _ _ _ Habs) in Hi. discriminate.
Qed.

(** And conversely: on a class with [configure_models] overridden, hooks
    that return make the construction return. *)
Lemma instantiate_returns c args w r1 s1 r2 s2 r3 self w' :
  overrides c ConfigureModels = true ->
  code (getmethod c ConfigureLosses) ({| hparams := args; attrs := ∅ |}, w)
  = (Return r1, s1) ->
  code (getmethod c ConfigureMetrics) s1 = (Return r2, s2) ->
  code (getmethod c ConfigureModels) s2 = (Return r3, (self, w')) ->
  instantiate c args w = (Return self, w', init_log args).
Proof.
  intros Hov H1 H2 H3.
  pose proof (abstractmethods_overrides c) as Habs. rewrite Hov in Habs.
  now rewrite (instantiate_concrete _ _ _ Habs), H1, H2, H3.
Qed.

(** The constructor never calls a hook out of order, also when a hook
    raises. *)
Lemma instantiate_log_prefix c args w r w' log :
  instantiate c args w = (r, w', log) ->
  log = [] \/ exists k, log = firstn (2 + k) (init_log args).
Proof.
  intros Hi.
  pose proof (abstractmethods_overrides c) as Habs.
  destruct (overrides c ConfigureModels).
  - right. rewrite (instantiate_concrete _ _ _ Habs) in Hi.
    destruct (code (getmethod c ConfigureLosses) _) as [[r1|e1] [o1 w1]].
    + destruct (code (getmethod c ConfigureMetrics) _) as [[r2|e2] [o2 w2]].
      * exists 2.
        destruct (code (getmethod c ConfigureModels) _) as [[r3|e3] [o3 w3]];
          now injection Hi as _ _ <-.
      * exists 1. now injection Hi as _ _ <-.
    + exists 0. now injection Hi as _ _ <-.
  - left. rewrite (instantiate_abstract _ _ _ _ _ Habs) in Hi. now injection Hi as _ _ <-.
Qed.



(** C5: a class on whose chain nothing overrides [configure_models],
    [BaseTask] itself being the first of them, cannot be instantiated:
    the call raises the [TypeError] of an abstract class, before
    [__init__] runs and without touching the world. *)
Theorem abstract_class_not_instantiable c args w :
  overrides c ConfigureModels = false ->
  instantiate c args w =
  (Raise (TypeError
            "Can't instantiate abstract class with abstract method configure_models"),
   w, []).
Proof.
  intros Hov. pose proof (abstractmethods_overrides c) as Habs.
  rewrite Hov in Habs. now rewrite (instantiate_abstract _ _ _ _ _ Habs).
Qed.

(** C9: the [configure_losses] and [configure_metrics] of [BaseTask]
    return [None] and leave the instance and the world as they were,
    both called directly and reached by dispatch from a class that does
    not override them. *)
Theorem default_loss_and_metric_hooks_are_noops (s : Obj * World) :
  configure_losses s = (Return VNone, s) /\
  configure_metrics s = (Return VNone, s) /\
  (forall c, overrides c ConfigureLosses = false ->
             code (getmethod c ConfigureLosses) s = (Return VNone, s)) /\
  (forall c, overrides c ConfigureMetrics = false ->
             code (getmethod c ConfigureMetrics) s = (Return VNone, s)).
Proof.
  repeat split; try reflexivity.
  - intros c Hov. now rewrite (getmethod_not_overridden _ _ Hov).
  - intros c Hov. now rewrite (getmethod_not_overridden _ _ Hov).
Qed.

(** ** [configure_optimizers] *)

(** The method, step by step: the two dictionary lookups and the two
    constructor calls, in the order Python evaluates them. *)
Lemma configure_optimizers_steps c self w :
  configure_optimizers c (self, w) =
  match hparams self !! "lr" with
  | None => (Raise (KeyError "lr"), (self, w))
  | Some lr =>
      match AdamW (parameters self w) lr w with
      | (Raise e, w1) => (Raise e, (self, w1))
      | (Return opt, w1) =>
          match hparams self !! "patience" with
          | None => (Raise (KeyError "patience"), (self, w1))
          | Some patience =>
              match ReduceLROnPlateau opt patience w1 with
              | (Raise e, w2) => (Raise e, (self, w2))
              | (Return sched, w2) =>
                  (Return {| optimizer := opt;
                             lr_scheduler := {| scheduler := sched;
                                                monitor := get_monitor c self |} |},
                   (self, w2))
              end
          end
      end
  end.
Proof.
  unfold configure_optimizers, bind, self_parameters, self_hparams, self_monitor,
    getitem, liftW, ret, raise.
  destruct (hparams self !! "lr") as [lr|]; [|reflexivity].
  destruct (AdamW (parameters self w) lr w) as [[opt|e] w1]; [|reflexivity].
  destruct (hparams self !! "patience") as [patience|]; [|reflexivity].
  destruct (ReduceLROnPlateau opt patience w1) as [[sched|e] w2]; reflexivity.
Qed.

(** A configuration that is returned is built from the two constructor
    results and [self.monitor]. *)
Lemma configure_optimizers_Return c self w cfg s' :
  configure_optimizers c (self, w) = (Return cfg, s') ->
  exists lr patience w1 w2,
    hparams self !! "lr" = Some lr /\
    hparams self !! "patience" = Some patience /\
    AdamW (parameters self w) lr w = (Return (optimizer cfg), w1) /\
    ReduceLROnPlateau (optimizer cfg) patience w1
    = (Return (scheduler (lr_scheduler cfg)), w2) /\
    monitor (lr_scheduler cfg) = get_monitor c self /\
    s' = (self, w2).
Proof.
  rewrite configure_optimizers_steps.
  destruct (hparams self !! "lr") as [lr|] eqn:Hlr; [|discriminate].
  destruct (AdamW (parameters self w) lr w) as [[opt|e] w1] eqn:Ha; [|discriminate].
  destruct (hparams self !! "patience") as [patience|] eqn:Hp; [|discriminate].
  destruct (ReduceLROnPlateau opt patience w1) as [[sched|e] w2] eqn:Hs; [|discriminate].
  intros [= <- <-]. exists lr, patience, w1, w2. simpl. repeat split; assumption.
Qed.

(** C1, amended: with [lr = 1e-3] and [patience = 5] among the
    hyperparameters, [configure_optimizers] calls [AdamW] on
    [self.parameters()] with learning rate [1e-3] and then
    [ReduceLROnPlateau] on that optimizer with patience [5]; when both
    constructors return, it returns the configuration that pairs the
    optimizer with the scheduler and with [self.monitor], which is
    ["val_loss"] when neither a class on the chain nor the instance
    overrides the attribute. *)
Theorem configure_optimizers_lr_patience c self w opt w1 sched w2 :
  hparams self !! "lr" = Some (VFloat 0.001) ->
  hparams self !! "patience" = Some (VInt 5) ->
  AdamW (parameters self w) (VFloat 0.001) w = (Return opt, w1) ->
  ReduceLROnPlateau opt (VInt 5) w1 = (Return sched, w2) ->
  configure_optimizers c (self, w)
  = (Return {| optimizer := opt;
               lr_scheduler := {| scheduler := sched; monitor := get_monitor c self |} |},
     (self, w2))
  /\ (overrides_monitor c = false -> attrs self !! "monitor" = None ->
      get_monitor c self = VStr "val_loss").
Proof.
  intros Hlr Hp Ha Hs. split.
  - now rewrite configure_optimizers_steps, Hlr, Ha, Hp, Hs.
  - intros Hc Hi. unfold get_monitor. rewrite Hi. now apply class_monitor_default.
Qed.

(** C6, amended: without the key [lr], [configure_optimizers] raises
    [KeyError] for it before anything is built; with [lr] but without
    [patience] it raises too, [KeyError] for [patience] once [AdamW] has
    returned; so a missing key never yields a configuration.  The values
    themselves are passed on unchecked: with both keys present,
    [configure_optimizers] raises exactly when one of the two constructors
    raises, and then with the exception and the world of that
    constructor. *)
Theorem configure_optimizers_missing_key c self w :
  (hparams self !! "lr" = None ->
   configure_optimizers c (self, w) = (Raise (KeyError "lr"), (self, w))) /\
  (forall lr opt w1,
      hparams self !! "lr" = Some lr ->
      hparams self !! "patience" = None ->
      AdamW (parameters self w) lr w = (Return opt, w1) ->
      configure_optimizers c (self, w) = (Raise (KeyError "patience"), (self, w1))) /\
  (hparams self !! "lr" = None \/ hparams self !! "patience" = None ->
   exists e s', configure_optimizers c (self, w) = (Raise e, s')) /\
  (forall lr patience e s',
      hparams self !! "lr" = Some lr ->
      hparams self !! "patience" = Some patience ->
      (configure_optimizers c (self, w) = (Raise e, s') <->
       (exists w1, AdamW (parameters self w) lr w = (Raise e, w1) /\ s' = (self, w1)) \/
       (exists opt w1 w2,
           AdamW (parameters self w) lr w = (Return opt, w1) /\
           ReduceLROnPlateau opt patience w1 = (Raise e, w2) /\ s' = (self, w2)))).
Proof.
  rewrite configure_optimizers_steps. split; [|split; [|split]].
  - now intros ->.
  - intros lr opt w1 -> -> ->. reflexivity.
  - intros [Hlr | Hp].
    + rewrite Hlr. eauto.
    + destruct (hparams self !! "lr") as [lr|]; [|eauto].
      destruct (AdamW (parameters self w) lr w) as [[opt|e] w1]; [|eauto].
      rewrite Hp. eauto.
  - intros lr patience e s' -> ->. split.
    + destruct (AdamW (parameters self w) lr w) as [[opt|e1] w1].
      * destruct (ReduceLROnPlateau opt patience w1) as [[sched|e2] w2] eqn:Hs;
          [discriminate|].
        intros [= <- <-]. right. exists opt, w1, w2. auto.
      * intros [= <- <-]. left. exists w1. auto.
    + intros [(w1 & -> & ->) | (opt & w1 & w2 & -> & -> & ->)]; reflexivity.
Qed.

(** C7, amended: for a subclass whose body sets [monitor] to a string
    [m], and an instance that has no [monitor] attribute of its own, the
    configuration [configure_optimizers] returns has [m] under [monitor]
    in its [lr_scheduler] entry. *)
Theorem monitor_override_propagates base body m self w cfg s' :
  def_monitor body = Some (VStr m) ->
  attrs self !! "monitor" = None ->
  configure_optimizers (Subclass base body) (self, w) = (Return cfg, s') ->
  monitor (lr_scheduler cfg) = VStr m.
Proof.
  intros Hm Hi Hc.
  apply configure_optimizers_Return in Hc as (_ & _ & _ & _ & _ & _ & _ & _ & -> & _).
  unfold get_monitor. rewrite Hi. simpl. now rewrite Hm.
Qed.

(** C10: in a configuration that [configure_optimizers] returns, the
    scheduler is the result of [ReduceLROnPlateau] applied to the very
    reference that sits under [optimizer], itself the result of the one
    [AdamW] call. *)
Theorem scheduler_wraps_returned_optimizer c self w cfg s' :
  configure_optimizers c (self, w) = (Return cfg, s') ->
  exists lr patience w1 w2,
    hparams self !! "lr" = Some lr /\
    hparams self !! "patience" = Some patience /\
    AdamW (parameters self w) lr w = (Return (optimizer cfg), w1) /\
    ReduceLROnPlateau (optimizer cfg) patience w1
    = (Return (scheduler (lr_scheduler cfg)), w2) /\
    s' = (self, w2).
Proof.
  intros Hc.
  apply configure_optimizers_Return in Hc
    as (lr & patience & w1 & w2 & Hlr & Hp & Ha & Hs & _ & Hs').
  exists lr, patience, w1, w2. repeat split; assumption.
Qed.

(** ** [forward] *)

(** C4: on a task whose [model] is assigned, [forward] on any positional
    and keyword arguments gives what calling the model on them gives:
    the same value or exception and the same world, the instance
    untouched. *)
Theorem forward_delegates_to_model self w model args kwargs :
  attrs self !! "model" = Some model ->
  forward args kwargs (self, w)
  = (fst (py_call model args kwargs w), (self, snd (py_call model args kwargs w))).
Proof.
  intros Hm. unfold forward, bind, getattr, liftW. rewrite Hm.
  now destruct (py_call model args kwargs w).
Qed.

(** C8: on a task whose [model] was never assigned, [forward] raises
    [AttributeError] for [model], whatever the arguments, and changes
    nothing. *)
Theorem forward_without_model self w args kwargs :
  attrs self !! "model" = None ->
  forward args kwargs (self, w) = (Raise (AttributeError "model"), (self, w)).
Proof.
  intros Hm. unfold forward, bind, getattr. now rewrite Hm.
Qed.

End Properties.

(** * The class at work in the PyTorch world *)

(** ** Construction *)

Lemma IdentityTask_instance :
  instantiate Torch.IdentityTask (Torch.lr_patience (VFloat 0.001) (VInt 5)) []
  = (Return (Torch.task (VFloat 0.001) (VInt 5)), Torch.world,
     init_log (Torch.lr_patience (VFloat 0.001) (VInt 5))).
Proof. vm_compute. reflexivity. Qed.





Lemma abstract_class_not_instantiable_witness :
  instantiate (World := Torch.heap) BaseTask ∅ []
  = (Raise (TypeError
              "Can't instantiate abstract class with abstract method configure_models"),
     [], []) /\
  instantiate Torch.LossOnlyTask (Torch.lr_patience (VFloat 0.001) (VInt 5)) Torch.world
  = (Raise (TypeError
              "Can't instantiate abstract class with abstract method configure_models"),
     Torch.world, []).
Proof.
  split; apply abstract_class_not_instantiable; reflexivity.
Defined.

Lemma default_loss_and_metric_hooks_are_noops_witness :
  code (getmethod Torch.IdentityTask ConfigureLosses)
    (Torch.task (VFloat 0.001) (VInt 5), Torch.world)
  = (Return VNone, (Torch.task (VFloat 0.001) (VInt 5), Torch.world)) /\
  code (getmethod Torch.IdentityTask ConfigureMetrics)
    (Torch.task (VFloat 0.001) (VInt 5), Torch.world)
  = (Return VNone, (Torch.task (VFloat 0.001) (VInt 5), Torch.world)).
Proof.
  destruct (default_loss_and_metric_hooks_are_noops
              (Torch.task (VFloat 0.001) (VInt 5), Torch.world))
    as (_ & _ & Hl & Hm).
  split; [apply Hl | apply Hm]; reflexivity.
Defined.

(** ** [configure_optimizers] *)

Lemma configure_optimizers_lr_patience_witness :
  configure_optimizers Torch.IdentityTask
    (Torch.task (VFloat 0.001) (VInt 5), Torch.world)
  = (Return (Torch.config "val_loss"),
     (Torch.task (VFloat 0.001) (VInt 5), Torch.configured (VFloat 0.001) (VInt 5))).
Proof.
  apply (configure_optimizers_lr_patience
           Torch.IdentityTask (Torch.task (VFloat 0.001) (VInt 5)) Torch.world
           (VObj 2) [Torch.Tensor; Torch.NNModule [0] Torch.identity;
                     Torch.Optimizer [VObj 0] (VFloat 0.001)]
           (VObj 3) (Torch.configured (VFloat 0.001) (VInt 5)));
    vm_compute; reflexivity.
Defined.

(** The two hyperparameters do not fix the outcome.  With [monitor]
    overridden in a subclass, the configuration for [lr = 1e-3] and
    [patience = 5] monitors the overriding name and not ["val_loss"]; and
    on a task without parameters [AdamW] refuses the empty list, so that
    no configuration is returned. *)
Lemma lr_patience_do_not_fix_the_configuration :
  hparams (Torch.task (VFloat 0.001) (VInt 5)) !! "lr" = Some (VFloat 0.001) /\
  hparams (Torch.task (VFloat 0.001) (VInt 5)) !! "patience" = Some (VInt 5) /\
  configure_optimizers Torch.AccuracyTask
    (Torch.task (VFloat 0.001) (VInt 5), Torch.world)
  = (Return (Torch.config "val_acc"),
     (Torch.task (VFloat 0.001) (VInt 5), Torch.configured (VFloat 0.001) (VInt 5))) /\
  monitor (lr_scheduler (Torch.config "val_acc")) <> VStr "val_loss" /\
  hparams (Torch.bare (VFloat 0.001) (VInt 5)) !! "lr" = Some (VFloat 0.001) /\
  hparams (Torch.bare (VFloat 0.001) (VInt 5)) !! "patience" = Some (VInt 5) /\
  configure_optimizers Torch.PassTask (Torch.bare (VFloat 0.001) (VInt 5), [])
  = (Raise (ValueError "optimizer got an empty parameter list"),
     (Torch.bare (VFloat 0.001) (VInt 5), [])).
Proof.
  repeat split; try (vm_compute; reflexivity). discriminate.
Qed.

Lemma configure_optimizers_missing_key_witness :
  configure_optimizers Torch.IdentityTask
    ({| hparams := {["patience" := VInt 5]}; attrs := {["model" := VObj 1]} |},
     Torch.world)
  = (Raise (KeyError "lr"),
     ({| hparams := {["patience" := VInt 5]}; attrs := {["model" := VObj 1]} |},
      Torch.world)) /\
  configure_optimizers Torch.IdentityTask
    ({| hparams := {["lr" := VFloat 0.001]}; attrs := {["model" := VObj 1]} |},
     Torch.world)
  = (Raise (KeyError "patience"),
     ({| hparams := {["lr" := VFloat 0.001]}; attrs := {["model" := VObj 1]} |},
      [Torch.Tensor; Torch.NNModule [0] Torch.identity;
       Torch.Optimizer [VObj 0] (VFloat 0.001)])).
Proof.
  split.
  - apply (configure_optimizers_missing_key Torch.IdentityTask). reflexivity.
  - apply (proj1 (proj2 (configure_optimizers_missing_key Torch.IdentityTask _ _))
             (VFloat 0.001) (VObj 2)); vm_compute; reflexivity.
Defined.

(** A [patience] that is not a number is stored by [ReduceLROnPlateau]
    as it is: [configure_optimizers] returns a configuration. *)
Lemma non_numeric_patience_is_accepted :
  hparams (Torch.task (VFloat 0.001) (VStr "five")) !! "patience" = Some (VStr "five") /\
  is_numeric (VStr "five") = false /\
  configure_optimizers Torch.IdentityTask
    (Torch.task (VFloat 0.001) (VStr "five"), Torch.world)
  = (Return (Torch.config "val_loss"),
     (Torch.task (VFloat 0.001) (VStr "five"),
      Torch.configured (VFloat 0.001) (VStr "five"))).
Proof.
  repeat split; vm_compute; reflexivity.
Qed.

(** A learning rate that is not a number does not get past [AdamW]. *)
Lemma non_numeric_lr_is_rejected :
  configure_optimizers Torch.IdentityTask
    (Torch.task (VStr "fast") (VInt 5), Torch.world)
  = (Raise (TypeError "'<=' not supported between 'float' and this type"),
     (Torch.task (VStr "fast") (VInt 5), Torch.world)).
Proof. vm_compute. reflexivity. Qed.

(** The class attribute is read through the instance.  [TrainLossTask]
    overrides [monitor] with ["val_acc"], its [configure_models] sets
    [self.monitor = "train_loss"], and the configuration of the instance
    it constructs monitors ["train_loss"]. *)
Lemma class_monitor_hidden_by_instance_attribute :
  overrides_monitor Torch.TrainLossTask = true /\
  class_monitor Torch.TrainLossTask = VStr "val_acc" /\
  instantiate Torch.TrainLossTask (Torch.lr_patience (VFloat 0.001) (VInt 5)) []
  = (Return (Torch.shadowing (VFloat 0.001) (VInt 5)), Torch.world,
     init_log (Torch.lr_patience (VFloat 0.001) (VInt 5))) /\
  configure_optimizers Torch.TrainLossTask
    (Torch.shadowing (VFloat 0.001) (VInt 5), Torch.world)
  = (Return (Torch.config "train_loss"),
     (Torch.shadowing (VFloat 0.001) (VInt 5),
      Torch.configured (VFloat 0.001) (VInt 5))) /\
  monitor (lr_scheduler (Torch.config "train_loss")) <> VStr "val_acc".
Proof.
  repeat split; try (vm_compute; reflexivity). discriminate.
Qed.

Lemma monitor_override_propagates_witness :
  monitor (lr_scheduler (Torch.config "val_acc")) = VStr "val_acc".
Proof.
  apply (monitor_override_propagates
           Torch.IdentityTask
           {| def_monitor := Some (VStr "val_acc");
              def_configure_losses := None;
              def_configure_metrics := None;
              def_configure_models := None |}
           "val_acc" (Torch.task (VFloat 0.001) (VInt 5)) Torch.world
           (Torch.config "val_acc")
           (Torch.task (VFloat 0.001) (VInt 5), Torch.configured (VFloat 0.001) (VInt 5)));
    vm_compute; reflexivity.
Defined.

Lemma scheduler_wraps_returned_optimizer_witness :
  exists lr patience w1 w2,
    hparams (Torch.task (VFloat 0.001) (VInt 5)) !! "lr" = Some lr /\
    hparams (Torch.task (VFloat 0.001) (VInt 5)) !! "patience" = Some patience /\
    AdamW (parameters (Torch.task (VFloat 0.001) (VInt 5)) Torch.world) lr Torch.world
    = (Return (VObj 2), w1) /\
    ReduceLROnPlateau (VObj 2) patience w1 = (Return (VObj 3), w2) /\
    (Torch.task (VFloat 0.001) (VInt 5), Torch.configured (VFloat 0.001) (VInt 5))
    = (Torch.task (VFloat 0.001) (VInt 5), w2).
Proof.
  apply (scheduler_wraps_returned_optimizer
           Torch.IdentityTask (Torch.task (VFloat 0.001) (VInt 5)) Torch.world
           (Torch.config "val_loss")).
  vm_compute. reflexivity.
Defined.

(** In the PyTorch world the scheduler object holds, as its optimizer, the
    reference that the configuration returns under [optimizer]. *)
Lemma torch_scheduler_holds_returned_optimizer c self h cfg self' h' :
  configure_optimizers (F := Torch.framework) c (self, h) = (Return cfg, (self', h')) ->
  exists l patience,
    scheduler (lr_scheduler cfg) = VObj l /\
    h' !! l = Some (Torch.Scheduler (optimizer cfg) patience).
Proof.
  intros Hc.
  apply configure_optimizers_Return in Hc
    as (lr & patience & h1 & h2 & _ & _ & _ & Hs & _ & [= _ <-]).
  simpl in Hs. unfold Torch.ReduceLROnPlateau, Torch.alloc, bind, ret in Hs.
  destruct (Torch.is_optimizer h1 (optimizer cfg)); [|discriminate].
  injection Hs as <- <-.
  exists (length h1), patience. split; [reflexivity|].
  now apply list_lookup_middle.
Qed.

(** ** [forward] *)

Lemma forward_delegates_to_model_witness :
  forward [VInt 7] [("scale", VInt 2)] (Torch.task (VFloat 0.001) (VInt 5), Torch.world)
  = (Return (VInt 7), (Torch.task (VFloat 0.001) (VInt 5), Torch.world)).
Proof.
  rewrite (forward_delegates_to_model
             (Torch.task (VFloat 0.001) (VInt 5)) Torch.world (VObj 1)
             [VInt 7] [("scale", VInt 2)] eq_refl).
  reflexivity.
Defined.

Lemma forward_without_model_witness :
  forward [VInt 7] [] (Torch.bare (VFloat 0.001) (VInt 5), ([] : Torch.heap))
  = (Raise (AttributeError "model"), (Torch.bare (VFloat 0.001) (VInt 5), [])).
Proof.
  apply forward_without_model. reflexivity.
Defined.

(** * Further properties of the class *)

Section Lifecycle.
Context {World : Type} {F : Framework World}.
Implicit Types (c : pyclass World) (self : Obj) (w : World).

(** ** Construction *)

Lemma concrete_abstractmethods c :
  overrides c ConfigureModels = true -> abstractmethods c = [].
Proof. intros Hov. now rewrite abstractmethods_overrides, Hov. Qed.


(** A class that overrides [configure_models] and keeps the other two
    hooks of [BaseTask]: constructing an instance is running its
    [configure_models] on the new object with the hyperparameters saved. *)
Theorem construction_with_default_hooks c args w :
  overrides c ConfigureLosses = false ->
  overrides c ConfigureMetrics = false ->
  overrides c ConfigureModels = true ->
  instantiate c args w =
  match code (getmethod c ConfigureModels) ({| hparams := args; attrs := ∅ |}, w) with
  | (Return _, (self, w')) => (Return self, w', init_log args)
  | (Raise e, (_, w')) => (Raise e, w', init_log args)
  end.
Proof.
  intros Hl Hm Hov. apply concrete_abstractmethods in Hov.
  rewrite (instantiate_concrete _ _ _ Hov).
  now rewrite (getmethod_not_overridden _ _ Hl), (getmethod_not_overridden _ _ Hm).
Qed.

(** When the hooks of the class leave [self.hparams] alone, the
    hyperparameters of a constructed instance are the constructor
    arguments. *)
Theorem hparams_after_construction c args w self w' log :
  (forall h, preserves_hparams (code (getmethod c h))) ->
  instantiate c args w = (Return self, w', log) ->
  hparams self = args.
Proof.
  intros Hpres Hi.
  apply instantiate_Return in Hi
    as (_ & _ & r1 & [o1 w1] & r2 & [o2 w2] & r3 & H1 & H2 & H3).
  rewrite (Hpres _ _ _ _ _ _ H3), (Hpres _ _ _ _ _ _ H2), (Hpres _ _ _ _ _ _ H1).
  reflexivity.
Qed.

(** [__init__] runs exactly on the classes that override
    [configure_models]: the constructor makes no call at all on the
    others, and at least saves the hyperparameters and calls
    [configure_losses] on these. *)
Theorem init_runs_iff_configure_models_overridden c args w :
  (overrides c ConfigureModels = false <-> snd (instantiate c args w) = []) /\
  (overrides c ConfigureModels = true <->
   exists rest,
     snd (instantiate c args w)
     = SaveHyperparameters args :: Invoke ConfigureLosses :: rest).
Proof.
  pose proof (abstractmethods_overrides c) as Habs.
  destruct (overrides c ConfigureModels).
  - rewrite (instantiate_concrete _ _ _ Habs).
    destruct (code (getmethod c ConfigureLosses) _) as [[r1|e1] [o1 w1]].
    + destruct (code (getmethod c ConfigureMetrics) _) as [[r2|e2] [o2 w2]].
      * destruct (code (getmethod c ConfigureModels) _) as [[r3|e3] [o3 w3]];
          (split; split; try discriminate; eauto).
      * split; split; try discriminate; eauto.
    + split; split; try discriminate; eauto.
  - rewrite (instantiate_abstract _ _ _ _ _ Habs). simpl.
    split; split; try discriminate; try reflexivity.
    intros [rest Hrest]. discriminate Hrest.
Qed.

(** ** [configure_optimizers] *)

(** [configure_optimizers] returns a configuration exactly when both keys
    are present and both constructors return; the configuration then
    holds the two constructor results and [self.monitor], whatever the
    values of [lr] and [patience] are. *)
Theorem configure_optimizers_returns_iff c self w cfg s' :
  configure_optimizers c (self, w) = (Return cfg, s') <->
  exists lr patience w1 w2,
    hparams self !! "lr" = Some lr /\
    hparams self !! "patience" = Some patience /\
    AdamW (parameters self w) lr w = (Return (optimizer cfg), w1) /\
    ReduceLROnPlateau (optimizer cfg) patience w1
    = (Return (scheduler (lr_scheduler cfg)), w2) /\
    monitor (lr_scheduler cfg) = get_monitor c self /\
    s' = (self, w2).
Proof.
  split; [apply configure_optimizers_Return|].
  intros (lr & patience & w1 & w2 & Hlr & Hp & Ha & Hs & Hm & ->).
  rewrite configure_optimizers_steps, Hlr, Ha, Hp, Hs, <- Hm.
  now destruct cfg as [opt [sched mon]].
Qed.

(** An exception of a constructor is the exception of
    [configure_optimizers].  One of [AdamW] comes before [patience] is
    looked up, so it wins over a missing [patience]; one of
    [ReduceLROnPlateau] leaves the optimizer that was built in the world. *)
Theorem constructor_exception_propagates c self w lr :
  hparams self !! "lr" = Some lr ->
  (forall e w1,
      AdamW (parameters self w) lr w = (Raise e, w1) ->
      configure_optimizers c (self, w) = (Raise e, (self, w1))) /\
  (forall opt w1 patience e w2,
      AdamW (parameters self w) lr w = (Return opt, w1) ->
      hparams self !! "patience" = Some patience ->
      ReduceLROnPlateau opt patience w1 = (Raise e, w2) ->
      configure_optimizers c (self, w) = (Raise e, (self, w2))).
Proof.
  intros Hlr. rewrite configure_optimizers_steps, Hlr. split.
  - now intros e w1 ->.
  - now intros opt w1 patience e w2 -> -> ->.
Qed.

(** An attribute [monitor] of the instance itself hides the class
    attribute: the configuration carries the value of the instance,
    whatever the classes on the chain define. *)
Theorem instance_monitor_shadows_class c self w v cfg s' :
  attrs self !! "monitor" = Some v ->
  configure_optimizers c (self, w) = (Return cfg, s') ->
  monitor (lr_scheduler cfg) = v.
Proof.
  intros Hv Hc.
  apply configure_optimizers_Return in Hc as (_ & _ & _ & _ & _ & _ & _ & _ & -> & _).
  unfold get_monitor. now rewrite Hv.
Qed.

(** The hyperparameters reach [configure_optimizers] from the
    constructor: on an instance of a class whose hooks leave
    [self.hparams] alone, built without [lr] or without [patience] among
    the constructor arguments, [configure_optimizers] raises in every
    world, and [KeyError] for [lr] at once when [lr] is the one missing. *)
Theorem constructed_without_lr_or_patience c args w self w' log w'' :
  (forall h, preserves_hparams (code (getmethod c h))) ->
  instantiate c args w = (Return self, w', log) ->
  args !! "lr" = None \/ args !! "patience" = None ->
  (exists e s', configure_optimizers c (self, w'') = (Raise e, s')) /\
  (args !! "lr" = None ->
   configure_optimizers c (self, w'') = (Raise (KeyError "lr"), (self, w''))).
Proof.
  intros Hpres Hi Hmiss.
  assert (hparams self = args) as Hh.
  { apply instantiate_Return in Hi
      as (_ & _ & r1 & [o1 w1] & r2 & [o2 w2] & r3 & H1 & H2 & H3).
    now rewrite (Hpres _ _ _ _ _ _ H3), (Hpres _ _ _ _ _ _ H2), (Hpres _ _ _ _ _ _ H1). }
  rewrite configure_optimizers_steps, Hh. split.
  - destruct Hmiss as [Hlr | Hp].
    + rewrite Hlr. eauto.
    + destruct (args !! "lr") as [lr|]; [|eauto].
      destruct (AdamW (parameters self w'') lr w'') as [[opt|e] w1]; [|eauto].
      rewrite Hp. eauto.
  - now intros ->.
Qed.

(** ** [forward] *)

(** A [model] that is not an object, [None] for one, cannot be called:
    [forward] raises [TypeError] and the framework is not reached. *)
Theorem forward_model_not_callable self w v args kwargs :
  attrs self !! "model" = Some v ->
  is_object v = false ->
  forward args kwargs (self, w)
  = (Raise (TypeError "object is not callable"), (self, w)).
Proof.
  intros Hm Hv. unfold forward, bind, getattr, liftW. rewrite Hm.
  destruct v; try reflexivity. discriminate Hv.
Qed.


End Lifecycle.

(** ** The further properties in the PyTorch world *)

Lemma IdentityTask_preserves_hparams h :
  preserves_hparams (code (getmethod Torch.IdentityTask h)).
Proof.
  intros self w r self' w' Hrun. destruct h.
  - now injection Hrun as _ <- _.
  - now injection Hrun as _ <- _.
  - cbv [getmethod Torch.IdentityTask defined def_configure_models code
         Torch.identity_configure_models bind liftW Torch.alloc Torch.setattr] in Hrun.
    now injection Hrun as _ <- _.
Qed.


Lemma construction_with_default_hooks_witness :
  instantiate Torch.IdentityTask (Torch.lr_patience (VFloat 0.001) (VInt 5)) []
  = match Torch.identity_configure_models
            ({| hparams := Torch.lr_patience (VFloat 0.001) (VInt 5); attrs := ∅ |}, [])
    with
    | (Return _, (self, w')) =>
        (Return self, w', init_log (Torch.lr_patience (VFloat 0.001) (VInt 5)))
    | (Raise e, (_, w')) =>
        (Raise e, w', init_log (Torch.lr_patience (VFloat 0.001) (VInt 5)))
    end.
Proof.
  apply (construction_with_default_hooks
           Torch.IdentityTask (Torch.lr_patience (VFloat 0.001) (VInt 5)) []);
    reflexivity.
Defined.

Lemma hparams_after_construction_witness :
  hparams (Torch.task (VFloat 0.001) (VInt 5))
  = Torch.lr_patience (VFloat 0.001) (VInt 5).
Proof.
  apply (hparams_after_construction
           Torch.IdentityTask (Torch.lr_patience (VFloat 0.001) (VInt 5)) []
           (Torch.task (VFloat 0.001) (VInt 5)) Torch.world
           (init_log (Torch.lr_patience (VFloat 0.001) (VInt 5)))).
  - exact IdentityTask_preserves_hparams.
  - vm_compute. reflexivity.
Defined.

Lemma init_runs_iff_configure_models_overridden_witness :
  snd (instantiate Torch.LossOnlyTask (Torch.lr_patience (VFloat 0.001) (VInt 5)) [])
  = [] /\
  exists rest,
    snd (instantiate Torch.BrokenMetricsTask
           (Torch.lr_patience (VFloat 0.001) (VInt 5)) [])
    = SaveHyperparameters (Torch.lr_patience (VFloat 0.001) (VInt 5))
      :: Invoke ConfigureLosses :: rest.
Proof.
  split.
  - apply (proj1 (init_runs_iff_configure_models_overridden Torch.LossOnlyTask _ _)).
    reflexivity.
  - apply (proj2 (init_runs_iff_configure_models_overridden Torch.BrokenMetricsTask _ _)).
    reflexivity.
Defined.

Lemma configure_optimizers_returns_iff_witness :
  configure_optimizers Torch.IdentityTask
    (Torch.task (VInt 2) (VBool true), Torch.world)
  = (Return (Torch.config "val_loss"),
     (Torch.task (VInt 2) (VBool true), Torch.configured (VInt 2) (VBool true))).
Proof.
  apply configure_optimizers_returns_iff.
  exists (VInt 2), (VBool true),
    [Torch.Tensor; Torch.NNModule [0] Torch.identity; Torch.Optimizer [VObj 0] (VInt 2)],
    (Torch.configured (VInt 2) (VBool true)).
  repeat split; vm_compute; reflexivity.
Defined.

Lemma constructor_exception_propagates_witness :
  configure_optimizers Torch.IdentityTask
    ({| hparams := {["lr" := VInt (-1)]}; attrs := {["model" := VObj 1]} |},
     Torch.world)
  = (Raise (ValueError "Invalid learning rate"),
     ({| hparams := {["lr" := VInt (-1)]}; attrs := {["model" := VObj 1]} |},
      Torch.world)).
Proof.
  destruct (constructor_exception_propagates
              Torch.IdentityTask
              {| hparams := {["lr" := VInt (-1)]}; attrs := {["model" := VObj 1]} |}
              Torch.world (VInt (-1))) as [Hraise _].
  - vm_compute. reflexivity.
  - apply Hraise. vm_compute. reflexivity.
Defined.

Lemma instance_monitor_shadows_class_witness :
  monitor (lr_scheduler (Torch.config "train_loss")) = VStr "train_loss".
Proof.
  apply (instance_monitor_shadows_class
           Torch.AccuracyTask (Torch.shadowing (VFloat 0.001) (VInt 5)) Torch.world
           (VStr "train_loss") (Torch.config "train_loss")
           (Torch.shadowing (VFloat 0.001) (VInt 5),
            Torch.configured (VFloat 0.001) (VInt 5)));
    vm_compute; reflexivity.
Defined.

Lemma constructed_without_lr_or_patience_witness :
  (exists e s',
      configure_optimizers Torch.IdentityTask
        ({| hparams := {["patience" := VInt 5]}; attrs := {["model" := VObj 1]} |},
         Torch.world)
      = (Raise e, s')) /\
  configure_optimizers Torch.IdentityTask
    ({| hparams := {["patience" := VInt 5]}; attrs := {["model" := VObj 1]} |},
     Torch.world)
  = (Raise (KeyError "lr"),
     ({| hparams := {["patience" := VInt 5]}; attrs := {["model" := VObj 1]} |},
      Torch.world)).
Proof.
  destruct (constructed_without_lr_or_patience
              Torch.IdentityTask {["patience" := VInt 5]} []
              {| hparams := {["patience" := VInt 5]}; attrs := {["model" := VObj 1]} |}
              Torch.world (init_log {["patience" := VInt 5]}) Torch.world)
    as [Hraises Hlr].
  - exact IdentityTask_preserves_hparams.
  - vm_compute. reflexivity.
  - left. reflexivity.
  - split; [exact Hraises | apply Hlr; reflexivity].
Defined.

Lemma forward_model_not_callable_witness :
  forward [VInt 7] [] (Torch.unset (VFloat 0.001) (VInt 5), Torch.world)
  = (Raise (TypeError "object is not callable"),
     (Torch.unset (VFloat 0.001) (VInt 5), Torch.world)).
Proof.
  apply (forward_model_not_callable
           (Torch.unset (VFloat 0.001) (VInt 5)) Torch.world VNone); reflexivity.
Defined.

